(** * Rule engine: tokenizer, parser, combiner and evaluator

    A shallow embedding of [rulengine.py] (classes [Node] and [RuleEngine])
    and the properties of its parsing / combining / evaluation pipeline.

    Conventions of the embedding
    - Python [str] values are [string]s over ASCII characters (code points
      below 128); the character classes [isdigit], [isalpha] and [isspace]
      are the ones Python's [str] methods compute on that range.
    - Python [int] is [Z] (arbitrary precision), [&] and [|] are [Z.land]
      and [Z.lor]; [float] operands are outside the model.
    - A reference that may be [None] ([Node.left], [Node.right], the result
      of [build_ast]) is a [Node] whose constructor [PyNone] stands for
      [None].
    - A raised exception is the [Raise] outcome of the [result] monad.
    - The interpreter's limit on the length of a digit string given to
      [int] is not modelled.
    - [build_ast], [combine_rules] and [evaluate_rule] are given as functions
      on values, without the interpreter's recursion limit; [Heap] gives the
      evaluator a second time, over a store of mutable objects and with the
      recursion limit, to state what a call does to the objects it is
      handed. *)

From Stdlib Require Import ZArith Ascii String List DecimalString DecimalPos.
From stdpp Require Import base option gmap strings list.

Local Open Scope Z_scope.

(** ** Python values and exceptions *)

(** Values held by operands, stored in contexts and returned by the
    evaluator: [None], [bool], [int], [str]. *)
Inductive PyVal : Type :=
| VNone
| VBool (b : bool)
| VInt (z : Z)
| VStr (s : string).

#[global] Instance PyVal_eq_dec : EqDecision PyVal.
Proof. solve_decision. Defined.

(** Built-in exception classes.  [ValueError] carries the message the source
    formats; the messages of exceptions raised by the interpreter itself
    ([list.pop] on an empty list, an unsupported operand type) are not
    modelled. *)
Inductive exn : Type :=
| ValueError (msg : string)
| SyntaxError (msg : string)
| IndexError
| KeyError
| TypeError
| RecursionError.

Inductive result (A : Type) : Type :=
| Ok (a : A)
| Raise (e : exn).
Arguments Ok {A} a.
Arguments Raise {A} e.

Definition bind {A B : Type} (m : result A) (k : A -> result B) : result B :=
  match m with
  | Ok a => k a
  | Raise e => Raise e
  end.

Notation "x <- m ;; k" := (bind m (fun x => k))
  (at level 100, m at next level, right associativity).

(** ** String methods used by the engine *)

Module PyStr.

Definition code (c : ascii) : N := N_of_ascii c.

(** [c.isdigit()] for one ASCII character. *)
Definition digit_char (c : ascii) : bool :=
  ((48 <=? code c) && (code c <=? 57))%N.

(** [c.isalpha()] for one ASCII character. *)
Definition alpha_char (c : ascii) : bool :=
  ((65 <=? code c) && (code c <=? 90) || (97 <=? code c) && (code c <=? 122))%N.

(** [c.isspace()] for one ASCII character: TAB, LF, VT, FF, CR,
    FS, GS, RS, US and the space. *)
Definition space_char (c : ascii) : bool :=
  ((9 <=? code c) && (code c <=? 13) || (28 <=? code c) && (code c <=? 32))%N.

Fixpoint all_chars (p : ascii -> bool) (s : string) : bool :=
  match s with
  | EmptyString => true
  | String c s' => p c && all_chars p s'
  end.

Definition is_empty (s : string) : bool :=
  match s with EmptyString => true | String _ _ => false end.

(** [s.isdigit()], [s.isalpha()]: false on the empty string. *)
Definition isdigit (s : string) : bool := negb (is_empty s) && all_chars digit_char s.
Definition isalpha (s : string) : bool := negb (is_empty s) && all_chars alpha_char s.

Definition quote : ascii := "'"%char.

(** [s.startswith("'")] and [s.endswith("'")]. *)
Definition startswith_quote (s : string) : bool :=
  match s with
  | EmptyString => false
  | String c _ => Ascii.eqb c quote
  end.

Fixpoint endswith_quote (s : string) : bool :=
  match s with
  | EmptyString => false
  | String c EmptyString => Ascii.eqb c quote
  | String _ s' => endswith_quote s'
  end.

(** [s.strip("'")]: every leading and every trailing quote is removed. *)
Fixpoint lstrip_quote (s : string) : string :=
  match s with
  | EmptyString => EmptyString
  | String c s' => if Ascii.eqb c quote then lstrip_quote s' else s
  end.

Fixpoint rstrip_quote (s : string) : string :=
  match s with
  | EmptyString => EmptyString
  | String c s' =>
      let r := rstrip_quote s' in
      if Ascii.eqb c quote && is_empty r then EmptyString else String c r
  end.

Definition strip_quote (s : string) : string := rstrip_quote (lstrip_quote s).

(** [int(s)] for a string of decimal digits. *)
Definition digit_val (c : ascii) : Z := Z.of_N (code c) - 48.

Fixpoint int_acc (acc : Z) (s : string) : Z :=
  match s with
  | EmptyString => acc
  | String c s' => int_acc (10 * acc + digit_val c) s'
  end.

Definition int (s : string) : Z := int_acc 0 s.

(** [s.replace(c, by)] for a one-character pattern [c]. *)
Fixpoint replace (c : ascii) (by_ : string) (s : string) : string :=
  match s with
  | EmptyString => EmptyString
  | String a s' =>
      if Ascii.eqb a c then by_ +:+ replace c by_ s'
      else String a (replace c by_ s')
  end.

(** [s.split()]: the maximal runs of non-whitespace characters, in order.
    [cur] is the run being read. *)
Fixpoint split_from (cur : string) (s : string) : list string :=
  match s with
  | EmptyString => if is_empty cur then [] else [cur]
  | String a s' =>
      if space_char a
      then (if is_empty cur then split_from EmptyString s'
            else cur :: split_from EmptyString s')
      else split_from (cur +:+ String a EmptyString) s'
  end.

Definition split (s : string) : list string := split_from EmptyString s.

(** [str(z)] of an [int]. *)
Definition of_int (z : Z) : string := NilZero.string_of_int (Z.to_int z).

End PyStr.

(** [str(v)], as used by the f-strings of the error messages. *)
Definition py_str (v : PyVal) : string :=
  match v with
  | VNone => "None"
  | VBool true => "True"
  | VBool false => "False"
  | VInt z => PyStr.of_int z
  | VStr s => s
  end.

(** ** The AST: class [Node] *)

(** [Node(node_type, left, right, value)]; [PyNone] is the [None]
    reference. *)
Inductive Node : Type :=
| PyNone
| MkNode (type : string) (left right : Node) (value : PyVal).

#[global] Instance Node_eq_dec : EqDecision Node.
Proof. solve_decision. Defined.

(** The operand node the parser builds for a value. *)
Definition operand (v : PyVal) : Node := MkNode "operand" PyNone PyNone v.

(** ** Tokenizer and parser *)

(** [RuleEngine.tokenize]. *)
Definition tokenize (rule_string : string) : list string :=
  PyStr.split
    (PyStr.replace ")"%char " ) " (PyStr.replace "("%char " ( " rule_string)).

(** [tokens.pop(0)]: the first token and the rest of the queue. *)
Definition pop0 (tokens : list string) : result (string * list string) :=
  match tokens with
  | [] => Raise IndexError
  | t :: rest => Ok (t, rest)
  end.

(** [RuleEngine.build_ast].  The token list is mutated in place by the
    source; here every call returns the tokens it leaves in the queue.
    [fuel] bounds the nesting of recursive calls; [None] is fuel
    exhaustion. *)
Fixpoint build_ast_fuel (fuel : nat) (tokens : list string)
  : option (result (Node * list string)) :=
  match fuel with
  | O => None
  | S fuel' =>
      match tokens with
      | [] => Some (Ok (PyNone, []))
      | token :: tokens1 =>
          if String.eqb token "(" then
            match build_ast_fuel fuel' tokens1 with
            | None => None
            | Some (Raise e) => Some (Raise e)
            | Some (Ok (left_node, tokens2)) =>
                match pop0 tokens2 with
                | Raise e => Some (Raise e)
                | Ok (operator_token, tokens3) =>
                    match build_ast_fuel fuel' tokens3 with
                    | None => None
                    | Some (Raise e) => Some (Raise e)
                    | Some (Ok (right_node, tokens4)) =>
                        match pop0 tokens4 with
                        | Raise e => Some (Raise e)
                        | Ok (_, tokens5) =>
                            Some (Ok (MkNode "operator" left_node right_node
                                        (VStr operator_token), tokens5))
                        end
                    end
                end
            end
          else if PyStr.isdigit token then
            Some (Ok (MkNode "operand" PyNone PyNone (VInt (PyStr.int token)), tokens1))
          else if PyStr.startswith_quote token && PyStr.endswith_quote token then
            Some (Ok (MkNode "operand" PyNone PyNone (VStr (PyStr.strip_quote token)), tokens1))
          else if PyStr.isalpha token then
            Some (Ok (MkNode "operand" PyNone PyNone (VStr token), tokens1))
          else
            Some (Raise (ValueError ("Invalid token: " +:+ token)))
      end
  end.

(** Every call pops a token before it recurses, so [S (length tokens)]
    levels are enough (lemma [build_ast_fuel_enough] below); the default
    branch is never taken. *)
Definition build_ast (tokens : list string) : result (Node * list string) :=
  match build_ast_fuel (S (length tokens)) tokens with
  | Some r => r
  | None => Raise IndexError
  end.

(** [RuleEngine.create_rule]. *)
Definition create_rule (rule_string : string) : result Node :=
  r <- build_ast (tokenize rule_string) ;; Ok (fst r).

(** [RuleEngine.combine_rules]: the [for] loop over [rules[1:]], with the
    accumulator [combined_ast]. *)
Fixpoint combine_loop (combined_ast : Node) (rules : list string) : result Node :=
  match rules with
  | [] => Ok combined_ast
  | rule_string :: rules' =>
      rule_ast <- create_rule rule_string ;;
      combine_loop (MkNode "operator" combined_ast rule_ast (VStr "AND")) rules'
  end.

Definition combine_rules (rules : list string) : result Node :=
  match rules with
  | [] => Ok PyNone
  | rule0 :: rules' =>
      combined_ast <- create_rule rule0 ;;
      combine_loop combined_ast rules'
  end.

(** The combiner in the specification's words: the accumulated tree and
    the next parsed tree become the left and right child of a fresh [AND]
    node. *)
Definition and_join (acc rule_ast : Node) : Node :=
  MkNode "operator" acc rule_ast (VStr "AND").

(** ** Evaluator *)

(** The evaluation context: field names to field values. *)
Abbreviation Dict := (gmap string PyVal).

(** [bool] is a subclass of [int]: the integer a numeric value stands
    for. *)
Definition as_int (v : PyVal) : option Z :=
  match v with
  | VBool b => Some (Z.b2z b)
  | VInt z => Some z
  | _ => None
  end.

(** The functions of the [operator] module stored in [OPERATORS]. *)
Module operator.

(** [a & b]: [bool] on two [bool]s, bitwise on integers, [TypeError]
    otherwise. *)
Definition and_ (a b : PyVal) : result PyVal :=
  match a, b with
  | VBool x, VBool y => Ok (VBool (x && y))
  | _, _ =>
      match as_int a, as_int b with
      | Some x, Some y => Ok (VInt (Z.land x y))
      | _, _ => Raise TypeError
      end
  end.

(** [a | b]. *)
Definition or_ (a b : PyVal) : result PyVal :=
  match a, b with
  | VBool x, VBool y => Ok (VBool (x || y))
  | _, _ =>
      match as_int a, as_int b with
      | Some x, Some y => Ok (VInt (Z.lor x y))
      | _, _ => Raise TypeError
      end
  end.

(** [a > b]: numbers by value, strings lexicographically by code point,
    [TypeError] on any other pair of types. *)
Definition gt (a b : PyVal) : result PyVal :=
  match a, b with
  | VStr x, VStr y => Ok (VBool (String.ltb y x))
  | _, _ =>
      match as_int a, as_int b with
      | Some x, Some y => Ok (VBool (y <? x))
      | _, _ => Raise TypeError
      end
  end.

(** [a < b]. *)
Definition lt (a b : PyVal) : result PyVal :=
  match a, b with
  | VStr x, VStr y => Ok (VBool (String.ltb x y))
  | _, _ =>
      match as_int a, as_int b with
      | Some x, Some y => Ok (VBool (x <? y))
      | _, _ => Raise TypeError
      end
  end.

(** [a == b]: never raises; values of unrelated types are unequal. *)
Definition eq (a b : PyVal) : result PyVal :=
  Ok (VBool
        match a, b with
        | VNone, VNone => true
        | VStr x, VStr y => String.eqb x y
        | _, _ =>
            match as_int a, as_int b with
            | Some x, Some y => x =? y
            | _, _ => false
            end
        end).

End operator.

(** [RuleEngine.OPERATORS.get(key)]: the table has five string keys. *)
Definition OPERATORS_get (key : PyVal) : option (PyVal -> PyVal -> result PyVal) :=
  match key with
  | VStr s =>
      if String.eqb s "AND" then Some operator.and_
      else if String.eqb s "OR" then Some operator.or_
      else if String.eqb s ">" then Some operator.gt
      else if String.eqb s "<" then Some operator.lt
      else if String.eqb s "=" then Some operator.eq
      else None
  | _ => None
  end.

(** [RuleEngine.evaluate_rule]. *)
Fixpoint evaluate_rule (ast : Node) (data : Dict) : result PyVal :=
  match ast with
  | PyNone => Ok (VBool false)
  | MkNode type left_child right_child value =>
      if String.eqb type "operand" then
        match value with
        | VStr name =>
            match data !! name with
            | Some v => Ok v
            | None => Ok value
            end
        | _ => Ok value
        end
      else
        left_result <- evaluate_rule left_child data ;;
        right_result <- evaluate_rule right_child data ;;
        match OPERATORS_get value with
        | Some operator_func => operator_func left_result right_result
        | None => Raise (ValueError ("Unknown operator: " +:+ py_str value))
        end
  end.

Definition rule1_string : string :=
  "((age > 30 AND department = 'Sales') OR (age < 25 AND department = 'Marketing')) AND (salary > 50000 OR experience > 5)".

Definition rule1_data : Dict :=
  <["age" := VInt 35]> (<["department" := VStr "Sales"]>
    (<["salary" := VInt 60000]> (<["experience" := VInt 3]> ∅))).

(** ** Inputs of the scenarios *)

Definition age_rule : string := "(age > 30)".
Definition salary_rule : string := "(salary > 50000)".

(** The parse of [age_rule] and of [salary_rule]. *)
Definition age_ast : Node :=
  MkNode "operator" (operand (VStr "age")) (operand (VInt 30)) (VStr ">").
Definition salary_ast : Node :=
  MkNode "operator" (operand (VStr "salary")) (operand (VInt 50000)) (VStr ">").

(** A hand-built [XOR] node over two integers, and one whose left child
    compares an integer with a string. *)
Definition xor_node : Node :=
  MkNode "operator" (operand (VInt 1)) (operand (VInt 2)) (VStr "XOR").
Definition xor_over_mixed : Node :=
  MkNode "operator"
    (MkNode "operator" (operand (VInt 1)) (operand (VStr "a")) (VStr ">"))
    (operand (VInt 2)) (VStr "XOR").

(** ** The evaluator over a store of objects *)

(** Python hands [evaluate_rule] references: to a [Node] object, whose
    attributes are assignable and whose children are references again, and
    to a [dict].  [Heap] is the evaluator at that level: every step of the
    source is a step of the state monad [M] over the store. *)
Module Heap.

Definition addr : Type := positive.

(** A [Node] object: its four attributes. *)
Record NodeObj : Type := mkNodeObj {
  obj_type : string;
  obj_left : option addr;
  obj_right : option addr;
  obj_value : PyVal
}.

(** The objects a call can reach: the [Node] at every address and the
    [dict] bound to [data]. *)
Record Store : Type := mkStore {
  nodes : addr -> NodeObj;
  context : Dict
}.

Definition M (A : Type) : Type := Store -> result A * Store.

Definition ret {A : Type} (a : A) : M A := fun s => (Ok a, s).

Definition throw {A : Type} (e : exn) : M A := fun s => (Raise e, s).

Definition mbind {A B : Type} (m : M A) (k : A -> M B) : M B :=
  fun s =>
    match m s with
    | (Ok a, s') => k a s'
    | (Raise e, s') => (Raise e, s')
    end.

Definition lift {A : Type} (r : result A) : M A := fun s => (r, s).

(** Attribute reads [ast.type], [ast.left], [ast.right], [ast.value]. *)
Definition getattr (a : addr) : M NodeObj := fun s => (Ok (nodes s a), s).

(** [name in data]. *)
Definition contains (name : string) : M bool :=
  fun s => (Ok (bool_decide (is_Some (context s !! name))), s).

(** [data[name]]. *)
Definition getitem (name : string) : M PyVal :=
  fun s =>
    match context s !! name with
    | Some v => (Ok v, s)
    | None => (Raise KeyError, s)
    end.

Notation "x <~ m ;; k" := (mbind m (fun x => k))
  (at level 100, m at next level, right associativity).

(** [RuleEngine.evaluate_rule] on references.  [depth] is the number of
    nested calls the interpreter still allows. *)
Fixpoint evaluate_rule (depth : nat) (ast : option addr) : M PyVal :=
  match depth with
  | O => throw RecursionError
  | S depth' =>
      match ast with
      | None => ret (VBool false)
      | Some a =>
          o <~ getattr a ;;
          if String.eqb (obj_type o) "operand" then
            match obj_value o with
            | VStr name =>
                found <~ contains name ;;
                if found then getitem name else ret (obj_value o)
            | _ => ret (obj_value o)
            end
          else
            left_result <~ evaluate_rule depth' (obj_left o) ;;
            right_result <~ evaluate_rule depth' (obj_right o) ;;
            match OPERATORS_get (obj_value o) with
            | Some operator_func => lift (operator_func left_result right_result)
            | None => throw (ValueError ("Unknown operator: " +:+ py_str (obj_value o)))
            end
      end
  end.

(** The reference [ast] points, in store [s], at the tree [t]. *)
Inductive repr (s : Store) : option addr -> Node -> Prop :=
| repr_none : repr s None PyNone
| repr_node (a : addr) (l r : Node) :
    repr s (obj_left (nodes s a)) l ->
    repr s (obj_right (nodes s a)) r ->
    repr s (Some a)
      (MkNode (obj_type (nodes s a)) l r (obj_value (nodes s a))).

(** A store holding the parse of ["(age > 30)"] at address 1, with the
    context [{age: 35}]. *)
Definition age_store : Store :=
  mkStore
    (fun a =>
       if Pos.eqb a 1 then mkNodeObj "operator" (Some 2%positive) (Some 3%positive) (VStr ">")
       else if Pos.eqb a 2 then mkNodeObj "operand" None None (VStr "age")
       else mkNodeObj "operand" None None (VInt 30))
    {["age" := VInt 35]}.

End Heap.

(** Number of nested [evaluate_rule] calls a tree needs. *)
Fixpoint call_depth (ast : Node) : nat :=
  match ast with
  | PyNone => 1
  | MkNode _ l r _ => S (Nat.max (call_depth l) (call_depth r))
  end.

(** ** Printing: [Node.__repr__] *)

(** [Node.__repr__]; a [None] child is formatted as ["None"]. *)
Fixpoint Node_repr (n : Node) : string :=
  match n with
  | PyNone => "None"
  | MkNode type left_child right_child value =>
      if String.eqb type "operator" then
        "(" +:+ Node_repr left_child +:+ " " +:+ py_str value +:+ " "
            +:+ Node_repr right_child +:+ ")"
      else py_str value
  end.

(** ** The rule store: [rules_db], [save_rule], [get_rule] *)

(** The dictionary [{'rule_string': ..., 'ast': ...}] stored for a rule. *)
Record RuleRecord : Type := mkRuleRecord {
  rec_rule_string : string;
  rec_ast : Node
}.

#[global] Instance RuleRecord_eq_dec : EqDecision RuleRecord.
Proof. solve_decision. Defined.

(** The state of a [RuleEngine] object: its attribute [rules_db]. *)
Record RuleEngine : Type := mkRuleEngine {
  rules_db : gmap string RuleRecord
}.

(** [RuleEngine.__init__]. *)
Definition RuleEngine_init : RuleEngine := mkRuleEngine ∅.

(** [RuleEngine.save_rule]: the engine after the assignment to
    [self.rules_db[rule_id]]. *)
Definition save_rule (self : RuleEngine) (rule_id rule_string : string) (ast : Node)
  : RuleEngine :=
  mkRuleEngine (<[rule_id := mkRuleRecord rule_string ast]> (rules_db self)).

(** [RuleEngine.get_rule]: [self.rules_db.get(rule_id)]. *)
Definition get_rule (self : RuleEngine) (rule_id : string) : option RuleRecord :=
  rules_db self !! rule_id.

(** ** Vocabulary of the properties *)

(** A character that [tokenize] leaves inside a token: neither whitespace
    nor a parenthesis. *)
Definition word_char (c : ascii) : bool :=
  negb (PyStr.space_char c) && negb (Ascii.eqb c "(") && negb (Ascii.eqb c ")").

(** A non-empty string of such characters. *)
Definition is_word (s : string) : bool :=
  negb (PyStr.is_empty s) && PyStr.all_chars word_char s.

(** The three kinds of token [tokenize] produces. *)
Definition is_token (s : string) : bool :=
  String.eqb s "(" || String.eqb s ")" || is_word s.


Definition is_None (ast : Node) : bool :=
  match ast with PyNone => true | MkNode _ _ _ _ => false end.

(** The shape of the trees [build_ast] returns for a non-empty queue:
    operand leaves holding a natural number or a string, and operator nodes
    with two such trees as children and a string as symbol. *)
Fixpoint parser_tree (ast : Node) : bool :=
  match ast with
  | PyNone => false
  | MkNode type left_child right_child value =>
      if String.eqb type "operand" then
        is_None left_child && is_None right_child
        && match value with
           | VInt z => 0 <=? z
           | VStr _ => true
           | _ => false
           end
      else
        String.eqb type "operator"
        && parser_tree left_child && parser_tree right_child
        && match value with VStr _ => true | _ => false end
  end.



(** The context keys [evaluate_rule] may look up in a tree: the strings
    held by the operands it reaches. *)
Fixpoint lookups (ast : Node) : list string :=
  match ast with
  | PyNone => []
  | MkNode type left_child right_child value =>
      if String.eqb type "operand" then
        match value with
        | VStr name => [name]
        | _ => []
        end
      else lookups left_child ++ lookups right_child
  end.


(** * Properties *)

(** ** The parser is total *)

Section Parser.

Local Open Scope nat_scope.

(** A result computed with some fuel is computed with any larger fuel. *)
Lemma build_ast_fuel_mono (fuel fuel' : nat) (tokens : list string) r :
  build_ast_fuel fuel tokens = Some r ->
  fuel <= fuel' ->
  build_ast_fuel fuel' tokens = Some r.
Proof.
  revert fuel' tokens r.
  induction fuel as [|fuel IH]; intros fuel' tokens r Hr Hle; [discriminate|].
  destruct fuel' as [|fuel']; [lia|].
  assert (Hle' : fuel <= fuel') by lia.
  simpl in *.
  destruct tokens as [|token tokens1]; [exact Hr|].
  destruct (String.eqb token "("); [|exact Hr].
  destruct (build_ast_fuel fuel tokens1) as [[[left_node tokens2]|e]|] eqn:Hl;
    [| |discriminate].
  - rewrite (IH _ _ _ Hl Hle').
    destruct (pop0 tokens2) as [[operator_token tokens3]|e]; [|exact Hr].
    destruct (build_ast_fuel fuel tokens3) as [[[right_node tokens4]|e]|] eqn:Hrt;
      [| |discriminate].
    + rewrite (IH _ _ _ Hrt Hle'). exact Hr.
    + rewrite (IH _ _ _ Hrt Hle'). exact Hr.
  - rewrite (IH _ _ _ Hl Hle'). exact Hr.
Qed.

Lemma pop0_length (tokens rest : list string) (t : string) :
  pop0 tokens = Ok (t, rest) -> length tokens = S (length rest).
Proof. destruct tokens; simpl; [discriminate|]. intros [= _ <-]. reflexivity. Qed.

(** With more fuel than tokens the parser answers, and the queue it
    leaves is no longer than the one it was given. *)
Lemma build_ast_fuel_enough (fuel : nat) (tokens : list string) :
  length tokens < fuel ->
  exists r, build_ast_fuel fuel tokens = Some r /\
            forall ast rest, r = Ok (ast, rest) -> length rest <= length tokens.
Proof.
  revert tokens.
  induction fuel as [|fuel IH]; intros tokens Hlt; [lia|].
  simpl.
  destruct tokens as [|token tokens1].
  { eexists; split; [reflexivity|]. intros ast rest [= _ <-]. simpl. lia. }
  simpl in Hlt.
  assert (Hleaf : forall ast rest : _, @Ok (Node * list string) (ast, tokens1) = Ok (ast, rest) ->
                    length rest <= length (token :: tokens1)).
  { intros ast rest [= <-]. simpl. lia. }
  destruct (String.eqb token "(").
  - destruct (IH tokens1 ltac:(lia)) as (r1 & -> & Hlen1).
    destruct r1 as [[left_node tokens2]|e];
      [|eexists; split; [reflexivity|discriminate]].
    specialize (Hlen1 _ _ eq_refl).
    destruct (pop0 tokens2) as [[operator_token tokens3]|e] eqn:Hpop;
      [|eexists; split; [reflexivity|discriminate]].
    apply pop0_length in Hpop.
    destruct (IH tokens3 ltac:(lia)) as (r2 & -> & Hlen2).
    destruct r2 as [[right_node tokens4]|e];
      [|eexists; split; [reflexivity|discriminate]].
    specialize (Hlen2 _ _ eq_refl).
    destruct (pop0 tokens4) as [[closing tokens5]|e] eqn:Hpop';
      [|eexists; split; [reflexivity|discriminate]].
    apply pop0_length in Hpop'.
    eexists; split; [reflexivity|].
    intros ast rest [= _ <-]. simpl. lia.
  - destruct (PyStr.isdigit token);
      [eexists; split; [reflexivity|]; intros ast rest [= _ <-]; simpl; lia|].
    destruct (PyStr.startswith_quote token && PyStr.endswith_quote token);
      [eexists; split; [reflexivity|]; intros ast rest [= _ <-]; simpl; lia|].
    destruct (PyStr.isalpha token);
      [eexists; split; [reflexivity|]; intros ast rest [= _ <-]; simpl; lia|].
    eexists; split; [reflexivity|discriminate].
Qed.

(** [build_ast] never runs out of fuel. *)
Lemma build_ast_fuel_total (tokens : list string) :
  build_ast_fuel (S (length tokens)) tokens = Some (build_ast tokens).
Proof.
  unfold build_ast.
  destruct (build_ast_fuel_enough (S (length tokens)) tokens) as (r & -> & _);
    [lia|reflexivity].
Qed.

Lemma build_ast_fuel_spec (fuel : nat) (tokens : list string) :
  length tokens < fuel ->
  build_ast_fuel fuel tokens = Some (build_ast tokens).
Proof.
  intros Hlt.
  apply build_ast_fuel_mono with (fuel := S (length tokens)); [|lia].
  apply build_ast_fuel_total.
Qed.

Lemma build_ast_length (tokens rest : list string) (ast : Node) :
  build_ast tokens = Ok (ast, rest) -> length rest <= length tokens.
Proof.
  intros H.
  destruct (build_ast_fuel_enough (S (length tokens)) tokens) as (r & Hr & Hlen);
    [lia|].
  rewrite build_ast_fuel_total in Hr. injection Hr as <-.
  exact (Hlen _ _ H).
Qed.

(** The body of [build_ast], with the recursive calls as calls of
    [build_ast] itself. *)
Lemma build_ast_nil : build_ast [] = Ok (PyNone, []).
Proof. reflexivity. Qed.

Lemma build_ast_cons (token : string) (tokens1 : list string) :
  build_ast (token :: tokens1) =
    if String.eqb token "(" then
      p1 <- build_ast tokens1 ;;
      p2 <- pop0 (snd p1) ;;
      p3 <- build_ast (snd p2) ;;
      p4 <- pop0 (snd p3) ;;
      Ok (MkNode "operator" (fst p1) (fst p3) (VStr (fst p2)), snd p4)
    else if PyStr.isdigit token then
      Ok (MkNode "operand" PyNone PyNone (VInt (PyStr.int token)), tokens1)
    else if PyStr.startswith_quote token && PyStr.endswith_quote token then
      Ok (MkNode "operand" PyNone PyNone (VStr (PyStr.strip_quote token)), tokens1)
    else if PyStr.isalpha token then
      Ok (MkNode "operand" PyNone PyNone (VStr token), tokens1)
    else
      Raise (ValueError ("Invalid token: " +:+ token)).
Proof.
  unfold build_ast at 1. cbn [length].
  set (fuel := S (length tokens1)).
  assert (Hfuel : length tokens1 < fuel) by (subst fuel; lia).
  clearbody fuel. simpl.
  destruct (String.eqb token "(").
  - rewrite (build_ast_fuel_spec fuel tokens1) by lia.
    destruct (build_ast tokens1) as [[left_node tokens2]|e] eqn:H1; [|reflexivity].
    apply build_ast_length in H1. simpl.
    destruct (pop0 tokens2) as [[operator_token tokens3]|e] eqn:Hpop; [|reflexivity].
    apply pop0_length in Hpop. simpl.
    rewrite (build_ast_fuel_spec fuel tokens3) by lia.
    destruct (build_ast tokens3) as [[right_node tokens4]|e]; [|reflexivity].
    simpl.
    destruct (pop0 tokens4) as [[closing tokens5]|e]; reflexivity.
  - destruct (PyStr.isdigit token); [reflexivity|].
    destruct (PyStr.startswith_quote token && PyStr.endswith_quote token); [reflexivity|].
    destruct (PyStr.isalpha token); reflexivity.
Qed.

End Parser.

(** ** Parser: operands and invalid tokens *)

Lemma startswith_quote_not_paren (token : string) :
  PyStr.startswith_quote token = true -> String.eqb token "(" = false.
Proof.
  destruct token as [|c token]; simpl; [discriminate|].
  intros H. apply Ascii.eqb_eq in H. subst c. reflexivity.
Qed.

Lemma startswith_quote_not_digit (token : string) :
  PyStr.startswith_quote token = true -> PyStr.isdigit token = false.
Proof.
  destruct token as [|c token]; simpl; [discriminate|].
  intros H. apply Ascii.eqb_eq in H. subst c. reflexivity.
Qed.

Lemma isdigit_not_paren (token : string) :
  PyStr.isdigit token = true -> String.eqb token "(" = false.
Proof.
  intros H.
  destruct (String.eqb_spec token "(") as [->|_]; [discriminate H|reflexivity].
Qed.

(** An exception of the left or of the right sub-expression aborts the
    enclosing parse. *)
Lemma build_ast_raise_left (tokens : list string) (e : exn) :
  build_ast tokens = Raise e -> build_ast ("(" :: tokens) = Raise e.
Proof. intros H. rewrite build_ast_cons. simpl. rewrite H. reflexivity. Qed.

Lemma build_ast_raise_right (tokens tokens2 tokens3 : list string)
    (left_node : Node) (operator_token : string) (e : exn) :
  build_ast tokens = Ok (left_node, operator_token :: tokens2) ->
  build_ast tokens2 = Raise e ->
  build_ast ("(" :: tokens) = Raise e.
Proof.
  intros H1 H2. rewrite build_ast_cons. simpl. rewrite H1. simpl.
  rewrite H2. reflexivity.
Qed.

(** ** Combiner *)

Lemma combine_loop_fold (rules : list string) (asts : list Node) (acc : Node) :
  Forall2 (fun rule_string ast => create_rule rule_string = Ok ast) rules asts ->
  combine_loop acc rules = Ok (fold_left and_join asts acc).
Proof.
  intros H. revert acc.
  induction H as [|rule_string ast rules asts Hparse _ IH]; intros acc.
  - reflexivity.
  - simpl. rewrite Hparse. simpl. apply IH.
Qed.

Lemma fold_and_join_root (asts : list Node) (acc ast : Node) :
  exists l r, fold_left and_join (ast :: asts) acc = MkNode "operator" l r (VStr "AND").
Proof.
  revert acc ast.
  induction asts as [|ast' asts IH]; intros acc ast.
  - simpl. eauto.
  - change (fold_left and_join (ast :: ast' :: asts) acc)
      with (fold_left and_join (ast' :: asts) (and_join acc ast)).
    apply IH.
Qed.

(** The first rule that fails to parse aborts the combination. *)
Lemma combine_loop_raise (rules : list string) (acc : Node) (rule_string : string) (e : exn) :
  create_rule rule_string = Raise e ->
  combine_loop acc (rule_string :: rules) = Raise e.
Proof. intros H. simpl. rewrite H. reflexivity. Qed.

(** ** Evaluator *)

Lemma OPERATORS_get_None (key : PyVal) :
  key <> VStr "AND" -> key <> VStr "OR" -> key <> VStr ">" ->
  key <> VStr "<" -> key <> VStr "=" ->
  OPERATORS_get key = None.
Proof.
  intros Hand Hor Hgt Hlt Heq.
  destruct key as [| | |s]; try reflexivity.
  simpl.
  repeat match goal with
         | |- context [String.eqb s ?k] =>
             destruct (String.eqb_spec s k); [subst s; congruence|]
         end.
  reflexivity.
Qed.

Lemma OPERATORS_get_Some (key : PyVal) f :
  OPERATORS_get key = Some f ->
  key = VStr "AND" \/ key = VStr "OR" \/ key = VStr ">" \/
  key = VStr "<" \/ key = VStr "=".
Proof.
  destruct key as [| | |s]; try discriminate.
  simpl.
  repeat match goal with
         | |- context [String.eqb s ?k] =>
             destruct (String.eqb_spec s k); [subst s; tauto|]
         end.
  discriminate.
Qed.

(** What [evaluate_rule] does on an operand node. *)
Lemma evaluate_rule_operand (l r : Node) (value : PyVal) (data : Dict) :
  evaluate_rule (MkNode "operand" l r value) data =
    match value with
    | VStr name => Ok (default value (data !! name))
    | _ => Ok value
    end.
Proof.
  simpl. destruct value as [| | |name]; try reflexivity.
  destruct (data !! name); reflexivity.
Qed.

(** ** Evaluation on the store *)

Lemma heap_evaluate_rule_store (depth : nat) (ast : option Heap.addr) (s : Heap.Store) :
  snd (Heap.evaluate_rule depth ast s) = s.
Proof.
  revert ast s.
  induction depth as [|depth IH]; intros ast s; [reflexivity|].
  simpl. destruct ast as [a|]; [|reflexivity].
  unfold Heap.mbind, Heap.getattr. simpl.
  destruct (String.eqb (Heap.obj_type (Heap.nodes s a)) "operand").
  - destruct (Heap.obj_value (Heap.nodes s a)) as [| | |name]; try reflexivity.
    unfold Heap.contains, Heap.getitem.
    destruct (bool_decide (is_Some (Heap.context s !! name))); [|reflexivity].
    destruct (Heap.context s !! name); reflexivity.
  - pose proof (IH (Heap.obj_left (Heap.nodes s a)) s) as Hl.
    destruct (Heap.evaluate_rule depth (Heap.obj_left (Heap.nodes s a)) s)
      as [[left_result|e] s1]; simpl in Hl; subst s1; [|reflexivity].
    pose proof (IH (Heap.obj_right (Heap.nodes s a)) s) as Hr.
    destruct (Heap.evaluate_rule depth (Heap.obj_right (Heap.nodes s a)) s)
      as [[right_result|e] s2]; simpl in Hr; subst s2; [|reflexivity].
    destruct (OPERATORS_get (Heap.obj_value (Heap.nodes s a))); reflexivity.
Qed.

(** On a store that holds the tree [t] at [ast], and within the recursion
    limit, the evaluator on references computes [evaluate_rule t]. *)
Lemma heap_evaluate_rule_refines (s : Heap.Store) (ast : option Heap.addr) (t : Node)
    (depth : nat) :
  Heap.repr s ast t ->
  (call_depth t <= depth)%nat ->
  Heap.evaluate_rule depth ast s = (evaluate_rule t (Heap.context s), s).
Proof.
  intros Hrepr. revert depth.
  induction Hrepr as [|a l r Hl IHl Hr IHr]; intros depth Hdepth.
  - destruct depth as [|depth]; [simpl in Hdepth; lia|reflexivity].
  - destruct depth as [|depth]; [simpl in Hdepth; lia|].
    simpl in Hdepth.
    cbn [Heap.evaluate_rule evaluate_rule].
    unfold Heap.mbind at 1. unfold Heap.getattr. cbn [fst snd].
    destruct (String.eqb (Heap.obj_type (Heap.nodes s a)) "operand").
    + destruct (Heap.obj_value (Heap.nodes s a)) as [| | |name]; try reflexivity.
      unfold Heap.mbind, Heap.contains, Heap.getitem, Heap.ret.
      destruct (Heap.context s !! name) as [v|] eqn:E.
      * rewrite bool_decide_eq_true_2 by eauto. rewrite E. reflexivity.
      * rewrite bool_decide_eq_false_2 by (intros [v Hv]; congruence). reflexivity.
    + unfold Heap.mbind.
      rewrite IHl by lia.
      destruct (evaluate_rule l (Heap.context s)) as [left_result|e]; [|reflexivity].
      rewrite IHr by lia. simpl.
      destruct (evaluate_rule r (Heap.context s)) as [right_result|e]; [|reflexivity].
      simpl.
      destruct (OPERATORS_get (Heap.obj_value (Heap.nodes s a))); reflexivity.
Qed.

(** The store [age_store] holds [age_ast]; evaluating its root within a
    recursion limit of 3 gives [True] and the same store. *)
Lemma age_store_repr : Heap.repr Heap.age_store (Some 1%positive) age_ast.
Proof.
  apply (Heap.repr_node Heap.age_store 1%positive (operand (VStr "age")) (operand (VInt 30))).
  - apply (Heap.repr_node Heap.age_store 2%positive PyNone PyNone); constructor.
  - apply (Heap.repr_node Heap.age_store 3%positive PyNone PyNone); constructor.
Qed.

Lemma age_store_evaluate :
  Heap.evaluate_rule 3 (Some 1%positive) Heap.age_store = (Ok (VBool true), Heap.age_store) /\
  Heap.evaluate_rule 1 (Some 1%positive) Heap.age_store = (Raise RecursionError, Heap.age_store).
Proof.
  split; [|reflexivity].
  rewrite (heap_evaluate_rule_refines _ _ _ 3%nat age_store_repr) by (simpl; lia).
  f_equal.
Qed.

(** * The claims *)

(** C1. The end-to-end scenario: [create_rule] on the rule string
    [rule1_string] is expected to give a tree that [evaluate_rule] maps to
    [True] on [{age: 35, department: "Sales", salary: 60000, experience: 3}].
    The code does not get that far: after [( age > 30] the parser pops [AND]
    as if it were the closing parenthesis, takes [department] for the
    operator and raises [ValueError("Invalid token: =")] on [=]; no tree is
    built and nothing is evaluated. *)
Theorem rule1_create_rule_raises :
  create_rule rule1_string = Raise (ValueError "Invalid token: =") /\
  (ast <- create_rule rule1_string ;; evaluate_rule ast rule1_data)
    <> Ok (VBool true).
Proof. split; [vm_compute; reflexivity|vm_compute; discriminate]. Qed.

(** C2, as the code has it.  An operand the parser builds from a token in
    single quotes holds the unquoted string; [evaluate_rule] returns the
    context's value for that string when the string is a key of the
    context, and the string itself otherwise: the lookup applies to every
    string operand, quoted or bare. *)
Theorem quoted_operand_evaluates (token : string) (rest : list string) :
  PyStr.startswith_quote token = true ->
  PyStr.endswith_quote token = true ->
  build_ast (token :: rest) = Ok (operand (VStr (PyStr.strip_quote token)), rest) /\
  forall data : Dict,
    evaluate_rule (operand (VStr (PyStr.strip_quote token))) data =
      match data !! PyStr.strip_quote token with
      | Some v => Ok v
      | None => Ok (VStr (PyStr.strip_quote token))
      end.
Proof.
  intros Hstart Hend. split.
  - rewrite build_ast_cons.
    rewrite (startswith_quote_not_paren _ Hstart).
    rewrite (startswith_quote_not_digit _ Hstart).
    rewrite Hstart, Hend. reflexivity.
  - intros data. reflexivity.
Qed.

Lemma quoted_operand_evaluates_witness :
  PyStr.startswith_quote "'Sales'" = true /\
  PyStr.endswith_quote "'Sales'" = true /\
  build_ast ["'Sales'"] = Ok (operand (VStr "Sales"), []).
Proof.
  split; [reflexivity|]. split; [reflexivity|].
  exact (proj1 (quoted_operand_evaluates "'Sales'" [] eq_refl eq_refl)).
Defined.

(** C2, as stated, fails: the operand parsed from ['Sales'] evaluates to
    [1], not to ["Sales"], in the context [{"Sales": 1}]. *)
Lemma quoted_operand_is_looked_up :
  build_ast ["'Sales'"] = Ok (operand (VStr "Sales"), []) /\
  evaluate_rule (operand (VStr "Sales")) {["Sales" := VInt 1]} = Ok (VInt 1) /\
  evaluate_rule (operand (VStr "Sales")) {["Sales" := VInt 1]} <> Ok (VStr "Sales").
Proof.
  split; [vm_compute; reflexivity|].
  split; [vm_compute; reflexivity|vm_compute; discriminate].
Qed.

(** C3. [combine_rules(["(age > 30)", "(salary > 50000)"])] is the [AND]
    node over the two parsed trees; and for every non-empty list of rule
    strings, parsed to [ast :: asts], the result is the left fold of
    [and_join] over [asts] from [ast]: each further tree is the right child
    of a fresh [AND] node whose left child is the accumulation so far. *)
Theorem combine_rules_left_fold :
  create_rule age_rule = Ok age_ast /\
  create_rule salary_rule = Ok salary_ast /\
  combine_rules [age_rule; salary_rule] =
    Ok (MkNode "operator" age_ast salary_ast (VStr "AND")) /\
  forall (rule_string : string) (rules : list string) (ast : Node) (asts : list Node),
    Forall2 (fun rule_string ast => create_rule rule_string = Ok ast)
      (rule_string :: rules) (ast :: asts) ->
    combine_rules (rule_string :: rules) = Ok (fold_left and_join asts ast).
Proof.
  split; [vm_compute; reflexivity|].
  split; [vm_compute; reflexivity|].
  split; [vm_compute; reflexivity|].
  intros rule_string rules ast asts H.
  inversion H as [|? ? ? ? Hhead Htail]; subst.
  simpl. rewrite Hhead. simpl.
  apply combine_loop_fold. exact Htail.
Qed.

Lemma combine_rules_left_fold_witness :
  Forall2 (fun rule_string ast => create_rule rule_string = Ok ast)
    [age_rule; salary_rule; age_rule] [age_ast; salary_ast; age_ast] /\
  combine_rules [age_rule; salary_rule; age_rule] =
    Ok (and_join (and_join age_ast salary_ast) age_ast).
Proof.
  assert (H : Forall2 (fun rule_string ast => create_rule rule_string = Ok ast)
                [age_rule; salary_rule; age_rule] [age_ast; salary_ast; age_ast]).
  { repeat constructor. }
  split; [exact H|].
  exact (proj2 (proj2 (proj2 combine_rules_left_fold)) _ _ _ _ H).
Defined.

(** C4, as the code has it.  A popped token that is not [(], not all
    decimal digits, not wrapped in single quotes and not all alphabetic
    makes [build_ast] raise at once: the exception is
    [ValueError("Invalid token: <token>")] (the class is [ValueError], not
    [SyntaxError]); no tree is returned, and an enclosing parenthesised
    parse raises the same exception. *)
Theorem build_ast_invalid_token (token : string) (rest : list string) :
  token <> "(" ->
  PyStr.isdigit token = false ->
  PyStr.startswith_quote token && PyStr.endswith_quote token = false ->
  PyStr.isalpha token = false ->
  build_ast (token :: rest) = Raise (ValueError ("Invalid token: " +:+ token)) /\
  build_ast ("(" :: token :: rest) = Raise (ValueError ("Invalid token: " +:+ token)).
Proof.
  intros Hparen Hdigit Hquoted Halpha.
  assert (H : build_ast (token :: rest) = Raise (ValueError ("Invalid token: " +:+ token))).
  { rewrite build_ast_cons.
    destruct (String.eqb_spec token "(") as [E|_]; [contradiction|].
    rewrite Hdigit, Hquoted, Halpha. reflexivity. }
  split; [exact H|].
  apply build_ast_raise_left. exact H.
Qed.

Lemma build_ast_invalid_token_witness :
  build_ast ["="; "'Sales'"; ")"] = Raise (ValueError "Invalid token: =") /\
  build_ast ["("; "="; "'Sales'"; ")"] = Raise (ValueError "Invalid token: =").
Proof.
  exact (build_ast_invalid_token "=" ["'Sales'"; ")"]
           ltac:(discriminate) eq_refl eq_refl eq_refl).
Defined.

(** C4, as stated, fails: on the token [=] the parser raises
    [ValueError("Invalid token: =")], which is not a [SyntaxError]. *)
Lemma invalid_token_is_not_SyntaxError :
  build_ast ["="] = Raise (ValueError "Invalid token: =") /\
  forall msg : string, build_ast ["="] <> Raise (SyntaxError msg).
Proof.
  split; [vm_compute; reflexivity|].
  intros msg. vm_compute. discriminate.
Qed.

(** C5, as the code has it.  A node that is not an operand and whose
    symbol is none of [AND], [OR], [>], [<], [=] never evaluates to a
    value, in any context.  Both children are evaluated first: when both
    give a value the failure is [ValueError("Unknown operator: <symbol>")],
    otherwise it is the exception of the first child that fails. *)
Theorem evaluate_rule_unknown_operator
    (type : string) (l r : Node) (value : PyVal) (data : Dict) :
  type <> "operand" ->
  value <> VStr "AND" -> value <> VStr "OR" -> value <> VStr ">" ->
  value <> VStr "<" -> value <> VStr "=" ->
  (exists e, evaluate_rule (MkNode type l r value) data = Raise e) /\
  (forall left_result right_result,
     evaluate_rule l data = Ok left_result ->
     evaluate_rule r data = Ok right_result ->
     evaluate_rule (MkNode type l r value) data =
       Raise (ValueError ("Unknown operator: " +:+ py_str value))) /\
  (forall e, evaluate_rule l data = Raise e ->
     evaluate_rule (MkNode type l r value) data = Raise e) /\
  (forall left_result e,
     evaluate_rule l data = Ok left_result ->
     evaluate_rule r data = Raise e ->
     evaluate_rule (MkNode type l r value) data = Raise e).
Proof.
  intros Htype Hand Hor Hgt Hlt Heq.
  pose proof (OPERATORS_get_None value Hand Hor Hgt Hlt Heq) as Hget.
  cbn [evaluate_rule].
  destruct (String.eqb_spec type "operand") as [E|_]; [contradiction|].
  rewrite Hget.
  destruct (evaluate_rule l data) as [lv|el]; simpl.
  - destruct (evaluate_rule r data) as [rv|er]; simpl.
    + repeat split; eauto; intros; congruence.
    + repeat split; eauto; intros; congruence.
  - repeat split; eauto; intros; congruence.
Qed.

Lemma evaluate_rule_unknown_operator_witness :
  evaluate_rule xor_node ∅ = Raise (ValueError "Unknown operator: XOR").
Proof.
  exact (proj1 (proj2 (evaluate_rule_unknown_operator
                         "operator" (operand (VInt 1)) (operand (VInt 2)) (VStr "XOR") ∅
                         ltac:(discriminate) ltac:(discriminate) ltac:(discriminate)
                         ltac:(discriminate) ltac:(discriminate) ltac:(discriminate)))
           (VInt 1) (VInt 2) eq_refl eq_refl).
Defined.

(** C5, as stated, fails: the [XOR] node whose left child is [1 > 'a']
    fails with the [TypeError] of that comparison, not with an
    unknown-operator error; the same tree is what [create_rule] builds from
    ["((1 > 'a') XOR 2)"]. *)
Lemma unknown_operator_after_children :
  create_rule "((1 > 'a') XOR 2)" = Ok xor_over_mixed /\
  evaluate_rule xor_over_mixed ∅ = Raise TypeError /\
  forall msg : string, evaluate_rule xor_over_mixed ∅ <> Raise (ValueError msg).
Proof.
  split; [vm_compute; reflexivity|].
  split; [vm_compute; reflexivity|].
  intros msg. vm_compute. discriminate.
Qed.

(** C6. An operand node holding a string that is not a key of the context
    evaluates to that string, without an exception; operand [foo] in the
    empty context gives ["foo"]. *)
Theorem evaluate_rule_missing_field (name : string) (l r : Node) (data : Dict) :
  data !! name = None ->
  evaluate_rule (MkNode "operand" l r (VStr name)) data = Ok (VStr name).
Proof. intros H. simpl. rewrite H. reflexivity. Qed.

Lemma evaluate_rule_missing_field_witness :
  (∅ : Dict) !! "foo" = None /\
  evaluate_rule (operand (VStr "foo")) ∅ = Ok (VStr "foo").
Proof.
  split; [reflexivity|].
  exact (evaluate_rule_missing_field "foo" PyNone PyNone ∅ eq_refl).
Defined.

(** C7. The parse of ["(age > 30)"] evaluates to [True] in [{age: 35}] and
    to [False] in [{age: 20}]. *)
Theorem age_rule_round_trip :
  (ast <- create_rule age_rule ;; evaluate_rule ast {["age" := VInt 35]})
    = Ok (VBool true) /\
  (ast <- create_rule age_rule ;; evaluate_rule ast {["age" := VInt 20]})
    = Ok (VBool false).
Proof. split; vm_compute; reflexivity. Qed.

(** C8. [evaluate_rule] is pure.  At the level of references and objects,
    a call, whatever the recursion limit, the reference and the store,
    leaves the store (every [Node] object and the context) as it found it,
    and a second call with the same arguments returns what the first one
    returned. *)
Theorem evaluate_rule_pure (depth : nat) (ast : option Heap.addr) (s : Heap.Store) :
  snd (Heap.evaluate_rule depth ast s) = s /\
  Heap.evaluate_rule depth ast (snd (Heap.evaluate_rule depth ast s)) =
    Heap.evaluate_rule depth ast s.
Proof.
  pose proof (heap_evaluate_rule_store depth ast s) as H.
  split; [exact H|]. rewrite H. reflexivity.
Qed.

(** C9. With two or more rule strings that all parse, the root of the
    combined tree is an [AND] operator node; with one rule string the
    result is that of [create_rule] on it, unwrapped; with none it is
    [None]. *)
Theorem combine_rules_root :
  (forall (rule1 rule2 : string) (rules : list string) (asts : list Node),
     Forall2 (fun rule_string ast => create_rule rule_string = Ok ast)
       (rule1 :: rule2 :: rules) asts ->
     exists l r,
       combine_rules (rule1 :: rule2 :: rules) = Ok (MkNode "operator" l r (VStr "AND"))) /\
  (forall rule_string : string, combine_rules [rule_string] = create_rule rule_string) /\
  combine_rules [] = Ok PyNone.
Proof.
  split; [|split].
  - intros rule1 rule2 rules asts H.
    inversion H as [|? ast1 ? asts1 H1 Htail]; subst.
    inversion Htail as [|? ast2 ? asts2 H2 Htail2]; subst.
    destruct (fold_and_join_root asts2 ast1 ast2) as (l & r & Hroot).
    exists l, r.
    simpl. rewrite H1. simpl. rewrite H2. simpl.
    rewrite (combine_loop_fold rules asts2 _ Htail2).
    f_equal. exact Hroot.
  - intros rule_string. simpl.
    destruct (create_rule rule_string); reflexivity.
  - reflexivity.
Qed.

Lemma combine_rules_root_witness :
  Forall2 (fun rule_string ast => create_rule rule_string = Ok ast)
    [age_rule; salary_rule] [age_ast; salary_ast] /\
  exists l r, combine_rules [age_rule; salary_rule] = Ok (MkNode "operator" l r (VStr "AND")).
Proof.
  assert (H : Forall2 (fun rule_string ast => create_rule rule_string = Ok ast)
                [age_rule; salary_rule] [age_ast; salary_ast]).
  { repeat constructor. }
  split; [exact H|].
  exact (proj1 combine_rules_root _ _ _ _ H).
Defined.

(** C10. An operand node holding an integer evaluates to that integer in
    every context, whatever keys the context has; so does the operand the
    parser builds from a token of decimal digits. *)
Theorem evaluate_rule_integer_operand :
  (forall (z : Z) (l r : Node) (data : Dict),
     evaluate_rule (MkNode "operand" l r (VInt z)) data = Ok (VInt z)) /\
  (forall (token : string) (rest : list string) (data : Dict),
     PyStr.isdigit token = true ->
     build_ast (token :: rest) = Ok (operand (VInt (PyStr.int token)), rest) /\
     evaluate_rule (operand (VInt (PyStr.int token))) data = Ok (VInt (PyStr.int token))).
Proof.
  split.
  - intros z l r data. reflexivity.
  - intros token rest data Hdigit. split; [|reflexivity].
    rewrite build_ast_cons.
    rewrite (isdigit_not_paren _ Hdigit), Hdigit. reflexivity.
Qed.

Lemma evaluate_rule_integer_operand_witness :
  PyStr.isdigit "30" = true /\
  build_ast ["30"] = Ok (operand (VInt 30), []) /\
  evaluate_rule (operand (VInt 30)) {["30" := VStr "thirty"]} = Ok (VInt 30).
Proof.
  split; [reflexivity|].
  exact (proj2 evaluate_rule_integer_operand "30" [] {["30" := VStr "thirty"]} eq_refl).
Defined.

(** * Further properties of the engine *)

(** ** Strings *)

Lemma append_cons (x : ascii) (a b : string) :
  String x a +:+ b = String x (a +:+ b).
Proof. reflexivity. Qed.

Lemma append_empty_l (b : string) : "" +:+ b = b.
Proof. reflexivity. Qed.

Lemma append_assoc (a b c : string) : (a +:+ b) +:+ c = a +:+ (b +:+ c).
Proof.
  induction a as [|x a IH]; [reflexivity|].
  rewrite !append_cons. f_equal. exact IH.
Qed.


Lemma all_chars_app (p : ascii -> bool) (a b : string) :
  PyStr.all_chars p (a +:+ b) = PyStr.all_chars p a && PyStr.all_chars p b.
Proof.
  induction a as [|x a IH]; [reflexivity|].
  rewrite append_cons. simpl. rewrite IH. destruct (p x); reflexivity.
Qed.

Lemma replace_app (c : ascii) (by_ a b : string) :
  PyStr.replace c by_ (a +:+ b) = PyStr.replace c by_ a +:+ PyStr.replace c by_ b.
Proof.
  induction a as [|x a IH]; [reflexivity|].
  rewrite append_cons. simpl. rewrite IH.
  destruct (Ascii.eqb x c); [|reflexivity].
  rewrite append_assoc. reflexivity.
Qed.

(** The string [tokenize] splits: both replacements at once. *)
Lemma spaced_cons (c : ascii) (s : string) :
  PyStr.replace ")" " ) " (PyStr.replace "(" " ( " (String c s)) =
    if Ascii.eqb c "(" then
      " ( " +:+ PyStr.replace ")" " ) " (PyStr.replace "(" " ( " s)
    else if Ascii.eqb c ")" then
      " ) " +:+ PyStr.replace ")" " ) " (PyStr.replace "(" " ( " s)
    else String c (PyStr.replace ")" " ) " (PyStr.replace "(" " ( " s)).
Proof.
  simpl. destruct (Ascii.eqb_spec c "(") as [->|Hopen].
  - rewrite replace_app. reflexivity.
  - simpl. destruct (Ascii.eqb c ")"); reflexivity.
Qed.

Lemma spaced_app (a b : string) :
  PyStr.replace ")" " ) " (PyStr.replace "(" " ( " (a +:+ b)) =
    PyStr.replace ")" " ) " (PyStr.replace "(" " ( " a)
    +:+ PyStr.replace ")" " ) " (PyStr.replace "(" " ( " b).
Proof. rewrite !replace_app. reflexivity. Qed.


(** ** [split] *)

(** The run being read, closed: nothing if it is empty. *)
Lemma split_from_space (cur : string) (c : ascii) (s : string) :
  PyStr.space_char c = true ->
  PyStr.split_from cur (String c s) =
    (if PyStr.is_empty cur then [] else [cur]) ++ PyStr.split_from "" s.
Proof. intros H. simpl. rewrite H. destruct (PyStr.is_empty cur); reflexivity. Qed.


Lemma split_from_app_space (cur a : string) (c : ascii) (b : string) :
  PyStr.space_char c = true ->
  PyStr.split_from cur (a +:+ String c b) =
    PyStr.split_from cur a ++ PyStr.split_from "" b.
Proof.
  intros Hc. revert cur.
  induction a as [|x a IH]; intros cur.
  - rewrite append_empty_l. simpl. rewrite Hc. destruct (PyStr.is_empty cur); reflexivity.
  - rewrite append_cons. simpl. destruct (PyStr.space_char x).
    + destruct (PyStr.is_empty cur); rewrite IH; reflexivity.
    + apply IH.
Qed.


Lemma is_empty_app (a b : string) :
  PyStr.is_empty (a +:+ b) = PyStr.is_empty a && PyStr.is_empty b.
Proof. destruct a; reflexivity. Qed.

(** ** Tokens *)

Lemma split_spaced_tokens (s cur : string) :
  PyStr.all_chars word_char cur = true ->
  Forall (fun token => is_token token = true)
    (PyStr.split_from cur (PyStr.replace ")" " ) " (PyStr.replace "(" " ( " s))).
Proof.
  revert cur. induction s as [|c s IH]; intros cur Hcur.
  - simpl. destruct (PyStr.is_empty cur) eqn:E; constructor; [|constructor].
    unfold is_token, is_word. rewrite E, Hcur. apply orb_true_r.
  - assert (Hemit : Forall (fun token => is_token token = true)
                      (if PyStr.is_empty cur then [] else [cur])).
    { destruct (PyStr.is_empty cur) eqn:E; constructor; [|constructor].
      unfold is_token, is_word. rewrite E, Hcur. apply orb_true_r. }
    rewrite spaced_cons.
    destruct (Ascii.eqb_spec c "(") as [->|Hopen];
      [|destruct (Ascii.eqb_spec c ")") as [->|Hclose]].
    + change (" ( " +:+ ?x) with (String " " (String "(" (String " " x))).
      rewrite split_from_space by reflexivity.
      apply Forall_app; split; [exact Hemit|].
      change (PyStr.split_from "" (String "(" (String " " ?x)))
        with ("(" :: PyStr.split_from "" x).
      constructor; [reflexivity|]. apply IH. reflexivity.
    + change (" ) " +:+ ?x) with (String " " (String ")" (String " " x))).
      rewrite split_from_space by reflexivity.
      apply Forall_app; split; [exact Hemit|].
      change (PyStr.split_from "" (String ")" (String " " ?x)))
        with (")" :: PyStr.split_from "" x).
      constructor; [reflexivity|]. apply IH. reflexivity.
    + destruct (PyStr.space_char c) eqn:Hsp.
      * rewrite split_from_space by exact Hsp.
        apply Forall_app; split; [exact Hemit|]. apply IH. reflexivity.
      * simpl. rewrite Hsp. apply IH.
        rewrite all_chars_app, Hcur. simpl.
        unfold word_char. rewrite Hsp.
        destruct (Ascii.eqb_spec c "("); [contradiction|].
        destruct (Ascii.eqb_spec c ")"); [contradiction|]. reflexivity.
Qed.

(** X1. Every token [tokenize] returns is [(], [)] or a non-empty string
    without whitespace and without parentheses. *)
Theorem tokenize_tokens (rule_string : string) :
  Forall (fun token => is_token token = true) (tokenize rule_string).
Proof. apply split_spaced_tokens. reflexivity. Qed.

(** X2. A rule string made of whitespace only (the empty string included)
    has no tokens; [create_rule] returns [None] for it, without an
    exception, and the evaluator maps that to [False] in every context. *)
Theorem create_rule_blank (rule_string : string) (data : Dict) :
  PyStr.all_chars PyStr.space_char rule_string = true ->
  tokenize rule_string = [] /\
  create_rule rule_string = Ok PyNone /\
  (ast <- create_rule rule_string ;; evaluate_rule ast data) = Ok (VBool false).
Proof.
  intros H.
  assert (Htok : tokenize rule_string = []).
  { unfold tokenize, PyStr.split.
    induction rule_string as [|c s IH]; [reflexivity|].
    simpl in H. apply andb_true_iff in H as [Hc Hs].
    rewrite spaced_cons.
    destruct (Ascii.eqb_spec c "(") as [->|_]; [discriminate Hc|].
    destruct (Ascii.eqb_spec c ")") as [->|_]; [discriminate Hc|].
    rewrite split_from_space by exact Hc. simpl. exact (IH Hs). }
  split; [exact Htok|].
  unfold create_rule. rewrite Htok. split; reflexivity.
Qed.

Lemma create_rule_blank_witness :
  PyStr.all_chars PyStr.space_char "   " = true /\
  create_rule "   " = Ok PyNone.
Proof.
  split; [reflexivity|].
  exact (proj1 (proj2 (create_rule_blank "   " ∅ eq_refl))).
Defined.

(** X3. Whitespace between two texts separates their tokens: the tokens
    of [a], a whitespace character and [b] are the tokens of [a] followed
    by the tokens of [b]. *)
Theorem tokenize_app_space (a b : string) (c : ascii) :
  PyStr.space_char c = true ->
  tokenize (a +:+ String c b) = tokenize a ++ tokenize b.
Proof.
  intros Hc. unfold tokenize, PyStr.split.
  rewrite spaced_app, spaced_cons.
  destruct (Ascii.eqb_spec c "(") as [->|_]; [discriminate Hc|].
  destruct (Ascii.eqb_spec c ")") as [->|_]; [discriminate Hc|].
  apply split_from_app_space. exact Hc.
Qed.

Lemma tokenize_app_space_witness :
  PyStr.space_char " " = true /\
  tokenize ("(age > 30)" +:+ String " " "AND x") = tokenize "(age > 30)" ++ tokenize "AND x".
Proof.
  split; [reflexivity|].
  exact (tokenize_app_space "(age > 30)" "AND x" " " eq_refl).
Defined.

(** ** Induction on the calls of [build_ast] *)

(** A property of [build_ast] holds for every queue when it holds for the
    empty queue, for a queue that starts with an operand or invalid token,
    and for each way a parenthesised parse can end, given the property for
    the two recursive calls. *)
Lemma build_ast_calls_ind (Q : list string -> result (Node * list string) -> Prop) :
  Q [] (Ok (PyNone, [])) ->
  (forall token tokens1,
      String.eqb token "(" = false ->
      Q (token :: tokens1) (build_ast (token :: tokens1))) ->
  (forall tokens1 e,
      build_ast tokens1 = Raise e -> Q tokens1 (Raise e) ->
      Q ("(" :: tokens1) (Raise e)) ->
  (forall tokens1 left_node,
      build_ast tokens1 = Ok (left_node, []) -> Q tokens1 (Ok (left_node, [])) ->
      Q ("(" :: tokens1) (Raise IndexError)) ->
  (forall tokens1 left_node operator_token tokens3 e,
      build_ast tokens1 = Ok (left_node, operator_token :: tokens3) ->
      Q tokens1 (Ok (left_node, operator_token :: tokens3)) ->
      build_ast tokens3 = Raise e -> Q tokens3 (Raise e) ->
      Q ("(" :: tokens1) (Raise e)) ->
  (forall tokens1 left_node operator_token tokens3 right_node,
      build_ast tokens1 = Ok (left_node, operator_token :: tokens3) ->
      Q tokens1 (Ok (left_node, operator_token :: tokens3)) ->
      build_ast tokens3 = Ok (right_node, []) -> Q tokens3 (Ok (right_node, [])) ->
      Q ("(" :: tokens1) (Raise IndexError)) ->
  (forall tokens1 left_node operator_token tokens3 right_node closing tokens5,
      build_ast tokens1 = Ok (left_node, operator_token :: tokens3) ->
      Q tokens1 (Ok (left_node, operator_token :: tokens3)) ->
      build_ast tokens3 = Ok (right_node, closing :: tokens5) ->
      Q tokens3 (Ok (right_node, closing :: tokens5)) ->
      Q ("(" :: tokens1)
        (Ok (MkNode "operator" left_node right_node (VStr operator_token), tokens5))) ->
  forall tokens, Q tokens (build_ast tokens).
Proof.
  intros Hnil Hleaf Hleft Hop Hright Hclose Hnode tokens.
  remember (length tokens) as n eqn:Hn.
  revert tokens Hn.
  induction n as [n IH] using lt_wf_ind; intros tokens Hn.
  destruct tokens as [|token tokens1]; [exact Hnil|].
  destruct (String.eqb_spec token "(") as [->|Hne].
  2:{ apply Hleaf. apply String.eqb_neq. exact Hne. }
  simpl in Hn.
  assert (IH1 : Q tokens1 (build_ast tokens1)).
  { apply (IH (length tokens1)); [lia|reflexivity]. }
  rewrite build_ast_cons. simpl.
  destruct (build_ast tokens1) as [[left_node tokens2]|e] eqn:H1; simpl.
  2:{ apply Hleft; assumption. }
  pose proof (build_ast_length _ _ _ H1) as Hlen1.
  destruct tokens2 as [|operator_token tokens3]; simpl.
  { apply (Hop tokens1 left_node); assumption. }
  simpl in Hlen1.
  assert (IH3 : Q tokens3 (build_ast tokens3)).
  { apply (IH (length tokens3)); [lia|reflexivity]. }
  destruct (build_ast tokens3) as [[right_node tokens4]|e] eqn:H3; simpl.
  2:{ apply (Hright tokens1 left_node operator_token tokens3); assumption. }
  destruct tokens4 as [|closing tokens5]; simpl.
  { apply (Hclose tokens1 left_node operator_token tokens3 right_node); assumption. }
  apply (Hnode tokens1 left_node operator_token tokens3 right_node closing); assumption.
Qed.

(** The result of [build_ast] on a queue that starts with a token other
    than [(]. *)
Lemma build_ast_leaf (token : string) (tokens1 : list string) :
  String.eqb token "(" = false ->
  build_ast (token :: tokens1) =
    if PyStr.isdigit token then
      Ok (operand (VInt (PyStr.int token)), tokens1)
    else if PyStr.startswith_quote token && PyStr.endswith_quote token then
      Ok (operand (VStr (PyStr.strip_quote token)), tokens1)
    else if PyStr.isalpha token then
      Ok (operand (VStr token), tokens1)
    else Raise (ValueError ("Invalid token: " +:+ token)).
Proof. intros H. rewrite build_ast_cons, H. reflexivity. Qed.

Lemma build_ast_Ok_nonempty (tokens rest : list string) (ast : Node) (t : string) :
  build_ast tokens = Ok (ast, t :: rest) -> tokens <> [].
Proof. intros H ->. rewrite build_ast_nil in H. discriminate. Qed.


(** ** What the parser raises *)



(** ** Tokens after a complete expression *)

(** X5. A successful parse of a non-empty queue reads only the tokens it
    consumes: with further tokens appended to the queue, [build_ast]
    returns the same tree and leaves those tokens, too, in the queue. *)
Theorem build_ast_app (tokens rest extra : list string) (ast : Node) :
  tokens <> [] ->
  build_ast tokens = Ok (ast, rest) ->
  build_ast (tokens ++ extra) = Ok (ast, rest ++ extra).
Proof.
  intros Hne H. revert ast rest H Hne.
  apply (build_ast_calls_ind
           (fun tokens r => forall ast rest, r = Ok (ast, rest) -> tokens <> [] ->
              build_ast (tokens ++ extra) = Ok (ast, rest ++ extra))).
  - intros ast rest _ Hne. contradiction.
  - intros token tokens1 Hparen ast rest H _.
    rewrite (build_ast_leaf _ _ Hparen) in H.
    change ((token :: tokens1) ++ extra) with (token :: (tokens1 ++ extra)).
    rewrite (build_ast_leaf _ _ Hparen).
    destruct (PyStr.isdigit token); [injection H as <- <-; reflexivity|].
    destruct (PyStr.startswith_quote token && PyStr.endswith_quote token);
      [injection H as <- <-; reflexivity|].
    destruct (PyStr.isalpha token); [injection H as <- <-; reflexivity|discriminate].
  - discriminate.
  - discriminate.
  - discriminate.
  - discriminate.
  - intros tokens1 l op tokens3 r closing tokens5 H1 IH1 H3 IH3 ast rest [= <- <-] _.
    change (("(" :: tokens1) ++ extra) with ("(" :: (tokens1 ++ extra)).
    rewrite build_ast_cons. simpl.
    rewrite (IH1 _ _ eq_refl (build_ast_Ok_nonempty _ _ _ _ H1)). simpl.
    rewrite (IH3 _ _ eq_refl (build_ast_Ok_nonempty _ _ _ _ H3)). reflexivity.
Qed.

Lemma build_ast_app_witness :
  build_ast (["("; "age"; ">"; "30"; ")"] ++ ["AND"; "x"]) = Ok (age_ast, [] ++ ["AND"; "x"]).
Proof.
  exact (build_ast_app ["("; "age"; ">"; "30"; ")"] [] ["AND"; "x"] age_ast
           ltac:(discriminate) eq_refl).
Defined.

(** ** The trees of the parser *)

Lemma int_acc_nonneg (s : string) (acc : Z) :
  0 <= acc -> PyStr.all_chars PyStr.digit_char s = true -> 0 <= PyStr.int_acc acc s.
Proof.
  revert acc. induction s as [|c s IH]; intros acc Hacc H; [exact Hacc|].
  simpl in H. apply andb_true_iff in H as [Hc Hs].
  simpl. apply IH; [|exact Hs].
  unfold PyStr.digit_char in Hc. apply andb_true_iff in Hc as [Hlo _].
  apply N.leb_le in Hlo. unfold PyStr.digit_val. lia.
Qed.

Lemma int_nonneg (token : string) :
  PyStr.isdigit token = true -> 0 <= PyStr.int token.
Proof.
  unfold PyStr.isdigit. intros H. apply andb_true_iff in H as [_ H].
  apply int_acc_nonneg; [lia|exact H].
Qed.

(** X6. The tree [build_ast] returns for a non-empty queue is strictly
    binary: every node is an ["operand"] leaf holding a natural number or a
    string, or an ["operator"] node with a string symbol and two such
    trees as children; no child is [None]. *)
Theorem build_ast_parser_tree (tokens rest : list string) (ast : Node) :
  tokens <> [] ->
  build_ast tokens = Ok (ast, rest) ->
  parser_tree ast = true.
Proof.
  intros Hne H. revert ast rest H Hne.
  apply (build_ast_calls_ind
           (fun tokens r => forall ast rest, r = Ok (ast, rest) -> tokens <> [] ->
              parser_tree ast = true)).
  - intros ast rest _ Hne. contradiction.
  - intros token tokens1 Hparen ast rest H _.
    rewrite (build_ast_leaf _ _ Hparen) in H.
    destruct (PyStr.isdigit token) eqn:Hdigit.
    { injection H as <- _. simpl. apply Z.leb_le. apply int_nonneg. exact Hdigit. }
    destruct (PyStr.startswith_quote token && PyStr.endswith_quote token);
      [injection H as <- _; reflexivity|].
    destruct (PyStr.isalpha token); [injection H as <- _; reflexivity|discriminate].
  - discriminate.
  - discriminate.
  - discriminate.
  - discriminate.
  - intros tokens1 l op tokens3 r closing tokens5 H1 IH1 H3 IH3 ast rest [= <- _] _.
    simpl.
    rewrite (IH1 _ _ eq_refl (build_ast_Ok_nonempty _ _ _ _ H1)).
    rewrite (IH3 _ _ eq_refl (build_ast_Ok_nonempty _ _ _ _ H3)). reflexivity.
Qed.

Lemma build_ast_parser_tree_witness :
  build_ast ["("; "age"; ">"; "30"; ")"] = Ok (age_ast, []) /\
  parser_tree age_ast = true.
Proof.
  split; [reflexivity|].
  exact (build_ast_parser_tree ["("; "age"; ">"; "30"; ")"] [] age_ast
           ltac:(discriminate) eq_refl).
Defined.

(** ** Decimal strings *)






(** ** Character classes *)











(** ** Printing and parsing again *)










(** ** The evaluator and the context *)

(** X9. The result of [evaluate_rule] depends on the context only through
    the keys that are strings held by operands of the tree: two contexts
    that agree on those keys give the same result, value or exception. *)
Theorem evaluate_rule_agree (ast : Node) (data1 data2 : Dict) :
  (forall name, In name (lookups ast) -> data1 !! name = data2 !! name) ->
  evaluate_rule ast data1 = evaluate_rule ast data2.
Proof.
  induction ast as [|type l IHl r IHr value]; intros H; [reflexivity|].
  simpl in *.
  destruct (String.eqb type "operand").
  - destruct value as [| | |name]; try reflexivity.
    rewrite (H name) by (left; reflexivity). reflexivity.
  - rewrite IHl by (intros name Hin; apply H, in_or_app; left; exact Hin).
    rewrite IHr by (intros name Hin; apply H, in_or_app; right; exact Hin).
    reflexivity.
Qed.

Lemma evaluate_rule_agree_witness :
  (forall name, In name (lookups age_ast) ->
     ({["age" := VInt 35]} : Dict) !! name
     = ({["age" := VInt 35; "salary" := VInt 1]} : Dict) !! name) /\
  evaluate_rule age_ast {["age" := VInt 35]}
  = evaluate_rule age_ast {["age" := VInt 35; "salary" := VInt 1]}.
Proof.
  assert (H : forall name, In name (lookups age_ast) ->
                ({["age" := VInt 35]} : Dict) !! name
                = ({["age" := VInt 35; "salary" := VInt 1]} : Dict) !! name).
  { intros name [<-|[]]. reflexivity. }
  split; [exact H|].
  exact (evaluate_rule_agree age_ast _ _ H).
Defined.

(** ** What the evaluator raises and returns *)




(** X11. A node whose symbol is [>], [<] or [=] evaluates to a [bool]
    whenever it evaluates to a value; and [=] itself never fails: when both
    children of an [=] node evaluate to values, so does the node. *)
Theorem evaluate_rule_comparison
    (type : string) (l r : Node) (op : string) (data : Dict) :
  type <> "operand" ->
  op = ">" \/ op = "<" \/ op = "=" ->
  (forall v, evaluate_rule (MkNode type l r (VStr op)) data = Ok v ->
             exists b, v = VBool b) /\
  (op = "=" ->
   forall left_result right_result,
     evaluate_rule l data = Ok left_result ->
     evaluate_rule r data = Ok right_result ->
     exists b, evaluate_rule (MkNode type l r (VStr op)) data = Ok (VBool b)).
Proof.
  intros Hty Hop. cbn [evaluate_rule].
  destruct (String.eqb_spec type "operand") as [E|_]; [contradiction|].
  split.
  - intros v.
    destruct (evaluate_rule l data) as [a|el]; simpl; [|discriminate].
    destruct (evaluate_rule r data) as [b|er]; simpl; [|discriminate].
    destruct Hop as [-> | [-> | ->]]; simpl;
      destruct a, b; simpl; intros [= <-]; eauto.
  - intros Heq a b Ha Hb. subst op. rewrite Ha, Hb. simpl. eauto.
Qed.

Lemma evaluate_rule_comparison_witness :
  exists b, evaluate_rule
              (MkNode "operator" (operand (VStr "Sales")) (operand (VInt 3)) (VStr "="))
              ∅ = Ok (VBool b).
Proof.
  exact (proj2 (evaluate_rule_comparison "operator" (operand (VStr "Sales"))
                  (operand (VInt 3)) "=" ∅
                  ltac:(discriminate) (or_intror (or_intror eq_refl)))
           eq_refl (VStr "Sales") (VInt 3) eq_refl eq_refl).
Defined.

(** X12. No operator short-circuits: both children of every operator node
    are evaluated, the left one first.  A failing left child makes the node
    fail with that exception, and a failing right child makes it fail even
    when the value of the left child would decide an [AND] or an [OR]. *)
Theorem evaluate_rule_no_short_circuit
    (type : string) (l r : Node) (value : PyVal) (data : Dict) (e : exn) :
  type <> "operand" ->
  (evaluate_rule l data = Raise e ->
   evaluate_rule (MkNode type l r value) data = Raise e) /\
  (forall left_result,
     evaluate_rule l data = Ok left_result ->
     evaluate_rule r data = Raise e ->
     evaluate_rule (MkNode type l r value) data = Raise e).
Proof.
  intros Hty. cbn [evaluate_rule].
  destruct (String.eqb_spec type "operand") as [E|_]; [contradiction|].
  split.
  - intros Hl. rewrite Hl. reflexivity.
  - intros left_result Hl Hr. rewrite Hl, Hr. reflexivity.
Qed.

Lemma evaluate_rule_no_short_circuit_witness :
  evaluate_rule
    (MkNode "operator" (operand (VBool false)) xor_node (VStr "AND")) ∅
  = Raise (ValueError "Unknown operator: XOR").
Proof.
  exact (proj2 (evaluate_rule_no_short_circuit "operator" (operand (VBool false))
                  xor_node (VStr "AND") ∅ (ValueError "Unknown operator: XOR")
                  ltac:(discriminate))
           (VBool false) eq_refl eq_refl).
Defined.

(** ** Combining and evaluating *)




(** X14. [combine_rules] raises the exception of the first rule string
    that fails to parse: the rules after it are not looked at. *)
Theorem combine_rules_first_failure
    (before : list string) (asts : list Node) (bad : string) (after : list string)
    (e : exn) :
  Forall2 (fun rule_string ast => create_rule rule_string = Ok ast) before asts ->
  create_rule bad = Raise e ->
  combine_rules (before ++ bad :: after) = Raise e.
Proof.
  intros Hparse Hbad.
  destruct Hparse as [|rule0 ast0 rules asts' H0 Hrest].
  - simpl. rewrite Hbad. reflexivity.
  - simpl. rewrite H0. simpl. generalize ast0. clear H0.
    induction Hrest as [|rule_string ast rules asts' Hast _ IH]; intros acc.
    + simpl. rewrite Hbad. reflexivity.
    + simpl. rewrite Hast. simpl. apply IH.
Qed.

Lemma combine_rules_first_failure_witness :
  create_rule rule1_string = Raise (ValueError "Invalid token: =") /\
  combine_rules ([age_rule] ++ rule1_string :: [salary_rule])
  = Raise (ValueError "Invalid token: =").
Proof.
  assert (H : create_rule rule1_string = Raise (ValueError "Invalid token: =")).
  { vm_compute. reflexivity. }
  split; [exact H|].
  apply (combine_rules_first_failure [age_rule] [age_ast] rule1_string [salary_rule]).
  - repeat constructor.
  - exact H.
Defined.

(** ** The rule store *)

(** X15. [get_rule] after [save_rule]: the identifier just saved maps to
    the record of the rule string and tree given to [save_rule], every
    other identifier maps to what it mapped to before, and a fresh engine
    has no rule ([get_rule] returns [None], it does not raise). *)
Theorem get_rule_save_rule
    (self : RuleEngine) (rule_id rule_string : string) (ast : Node) :
  get_rule (save_rule self rule_id rule_string ast) rule_id
  = Some (mkRuleRecord rule_string ast) /\
  (forall other : string,
     other <> rule_id ->
     get_rule (save_rule self rule_id rule_string ast) other = get_rule self other) /\
  (forall other : string, get_rule RuleEngine_init other = None).
Proof.
  unfold get_rule, save_rule. simpl. split; [|split].
  - apply lookup_insert_eq.
  - intros other Hne. apply lookup_insert_ne. congruence.
  - intros other. apply lookup_empty.
Qed.

Lemma get_rule_save_rule_witness :
  get_rule (save_rule RuleEngine_init "rule1" age_rule age_ast) "rule2" = None.
Proof.
  rewrite (proj1 (proj2 (get_rule_save_rule RuleEngine_init "rule1" age_rule age_ast))
             "rule2" ltac:(discriminate)).
  reflexivity.
Defined.

(** X16. Saving under an identifier that is already in use replaces the
    earlier record, and saves under different identifiers can be done in
    either order. *)
Theorem save_rule_twice
    (self : RuleEngine) (id1 id2 s1 s2 : string) (ast1 ast2 : Node) :
  save_rule (save_rule self id1 s1 ast1) id1 s2 ast2 = save_rule self id1 s2 ast2 /\
  (id1 <> id2 ->
   save_rule (save_rule self id1 s1 ast1) id2 s2 ast2
   = save_rule (save_rule self id2 s2 ast2) id1 s1 ast1).
Proof.
  unfold save_rule. simpl. split.
  - rewrite insert_insert_eq. reflexivity.
  - intros Hne. f_equal. apply insert_insert_ne. congruence.
Qed.

Lemma save_rule_twice_witness :
  save_rule (save_rule RuleEngine_init "rule1" age_rule age_ast) "rule2" salary_rule salary_ast
  = save_rule (save_rule RuleEngine_init "rule2" salary_rule salary_ast) "rule1" age_rule age_ast.
Proof.
  exact (proj2 (save_rule_twice RuleEngine_init "rule1" "rule2" age_rule salary_rule
                  age_ast salary_ast) ltac:(discriminate)).
Defined.

(** ** Parentheses *)

(** X17. A parenthesis needs no whitespace around it: it ends the token
    before it and is a token of its own. *)
Theorem tokenize_app_paren (a b : string) :
  tokenize (a +:+ String "(" b) = tokenize a ++ "(" :: tokenize b /\
  tokenize (a +:+ String ")" b) = tokenize a ++ ")" :: tokenize b.
Proof.
  unfold tokenize, PyStr.split. split.
  - rewrite spaced_app, spaced_cons. simpl Ascii.eqb. cbv iota.
    change (" ( " +:+ ?x) with (String " " (String "(" (String " " x))).
    rewrite split_from_app_space by reflexivity. reflexivity.
  - rewrite spaced_app, spaced_cons. simpl Ascii.eqb. cbv iota.
    change (" ) " +:+ ?x) with (String " " (String ")" (String " " x))).
    rewrite split_from_app_space by reflexivity. reflexivity.
Qed.





(** ** Node types *)

(** X20. [evaluate_rule] takes every node whose type is not ["operand"]
    for an operator node, while [Node.__repr__] takes every node whose type
    is not ["operator"] for an operand: a node of any other type is
    evaluated through its children and symbol but printed as its value
    alone. *)
Theorem other_node_type (type : string) (l r : Node) (value : PyVal) (data : Dict) :
  type <> "operand" ->
  type <> "operator" ->
  evaluate_rule (MkNode type l r value) data
  = evaluate_rule (MkNode "operator" l r value) data /\
  Node_repr (MkNode type l r value) = py_str value.
Proof.
  intros Hoperand Hoperator. simpl.
  destruct (String.eqb_spec type "operand") as [E|_]; [contradiction|].
  destruct (String.eqb_spec type "operator") as [E|_]; [contradiction|].
  split; reflexivity.
Qed.

Lemma other_node_type_witness :
  evaluate_rule (MkNode "comparison" (operand (VInt 2)) (operand (VInt 1)) (VStr ">")) ∅
  = Ok (VBool true) /\
  Node_repr (MkNode "comparison" (operand (VInt 2)) (operand (VInt 1)) (VStr ">")) = ">".
Proof.
  destruct (other_node_type "comparison" (operand (VInt 2)) (operand (VInt 1)) (VStr ">") ∅
              ltac:(discriminate) ltac:(discriminate)) as [Heval Hrepr].
  split; [rewrite Heval; reflexivity|exact Hrepr].
Defined.
